(** * convert.py: pose manifest conversion with scene normalisation

    A shallow embedding of [src/convert.py].  The script loads two JSON
    documents (camera poses and intrinsics), computes a centre and a scale
    from the camera translations, rewrites the translation column of each
    camera-to-world matrix and dumps one manifest.

    numpy's float64 arithmetic is IEEE binary64, here Rocq's primitive
    floats: executable, with rounding, overflow, infinities and NaN.  The
    program text is written once over an interface ([Arith]) of which
    binary64 is the instance the properties below are about; the real
    numbers are a second instance, an idealisation without rounding that
    one statement about a two-camera scene is also read in.

    Inputs are taken schema-valid, as records: every [world_from_camera]
    is a 4x4 array of floating-point entries, so [np.array] makes a
    float64 array of shape (4, 4) of it.  A missing key, a ragged array
    and the like are outside the model.  What the script prints is not
    modelled. *)

From Stdlib Require Import Floats.
From Stdlib Require Import Reals Lra Lia.
From Stdlib Require Import String List ZArith Bool.
From Stdlib Require Import Permutation.
Import ListNotations.

Set Implicit Arguments.

(** ** Arithmetic interface *)

Class Arith (F : Type) : Type := {
  f_zero : F;                    (* 0.0 *)
  f_one : F;                     (* 1.0 *)
  f_two : F;                     (* 2.0 *)
  f_add : F -> F -> F;
  f_sub : F -> F -> F;
  f_mul : F -> F -> F;
  f_div : F -> F -> F;
  f_sqrt : F -> F;
  f_maximum : F -> F -> F;       (* np.maximum, the step of np.max *)
  f_of_count : nat -> F          (* an element count used as a divisor *)
}.

(** IEEE 754 binary64.  A division by zero gives an infinity or NaN (numpy
    warns, it does not raise).  [np.maximum a b] is
    [(a >= b || isnan a) ? a : b]. *)
#[export] Instance binary64 : Arith float := {
  f_zero := PrimFloat.zero;
  f_one := PrimFloat.one;
  f_two := PrimFloat.two;
  f_add := PrimFloat.add;
  f_sub := PrimFloat.sub;
  f_mul := PrimFloat.mul;
  f_div := PrimFloat.div;
  f_sqrt := PrimFloat.sqrt;
  f_maximum := fun a b =>
    if PrimFloat.leb b a || PrimFloat.is_nan a then a else b;
  f_of_count := fun n => PrimFloat.of_uint63 (Uint63.of_Z (Z.of_nat n))
}.

(** The real numbers: no rounding, no overflow, no NaN, and a division by
    zero that is total.  An idealisation, not what numpy computes. *)
#[export] Instance exact : Arith R := {
  f_zero := 0%R;
  f_one := 1%R;
  f_two := 2%R;
  f_add := Rplus;
  f_sub := Rminus;
  f_mul := Rmult;
  f_div := Rdiv;
  f_sqrt := R_sqrt.sqrt;
  f_maximum := Rmax;
  f_of_count := INR
}.

(** ** Exceptions *)

Inductive exception : Type :=
| FileNotFoundError (path : string)
| IndexError
| ValueError.

Inductive result (A : Type) : Type :=
| Return (a : A)
| Raise (e : exception).

Arguments Return {A} a.
Arguments Raise {A} e.

Definition bind {A B : Type} (c : result A) (k : A -> result B) : result B :=
  match c with
  | Return a => k a
  | Raise e => Raise e
  end.

Notation "x <- c ;; k" := (bind c (fun x => k))
  (at level 61, c at next level, right associativity).

(** ** Data *)

Record vec3 (F : Type) : Type := Vec3 { vx : F; vy : F; vz : F }.

Record row4 (F : Type) : Type := Row4 { c0 : F; c1 : F; c2 : F; c3 : F }.

(** A 4x4 array, row-major. *)
Record mat4 (F : Type) : Type :=
  Mat4 { r0 : row4 F; r1 : row4 F; r2 : row4 F; r3 : row4 F }.

(** A JSON number of the intrinsics file; the script never computes with
    one, it copies them. *)
Inductive json_number (F : Type) : Type :=
| JInt (n : Z)
| JFloat (x : F).

Arguments JInt {F} n.
Arguments JFloat {F} x.

(** The poses document: [{"frames": [{"rgb_path", "world_from_camera"}]}]. *)
Module Poses.
Record frame (F : Type) : Type :=
  Frame { rgb_path : string; world_from_camera : mat4 F }.
Record t (F : Type) : Type := Make { frames : list (frame F) }.
End Poses.

(** The intrinsics document. *)
Module Intrinsics.
Record t (F : Type) : Type := Make {
  fx : json_number F;
  fy : json_number F;
  cx : json_number F;
  cy : json_number F;
  width : json_number F;
  height : json_number F
}.
End Intrinsics.

(** The dict [output_data], and the entries of its ["frames"] list. *)
Module Manifest.
Record frame (F : Type) : Type :=
  Frame { file_path : string; transform_matrix : mat4 F }.
Record t (F : Type) : Type := Make {
  fl_x : json_number F;
  fl_y : json_number F;
  cx : json_number F;
  cy : json_number F;
  w : json_number F;
  h : json_number F;
  sk_x : F;
  sk_y : F;
  k1 : F;
  k2 : F;
  p1 : F;
  p2 : F;
  is_fisheye : bool;
  sphere_center : list F;
  sphere_radius : F;
  aabb_scale : Z;
  frames : list (frame F)
}.
End Manifest.

(** An entry of [frames_buffer]. *)
Record frame_buf (F : Type) : Type :=
  FrameBuf { file_path : string; original_matrix : mat4 F }.

(** The three fixed paths of the script, as the part of the file system it
    touches; [None] is a file that does not exist. *)
Record filesystem (F : Type) : Type := Files {
  poses_json : option (Poses.t F);            (* INPUT_POSES *)
  intrinsics_json : option (Intrinsics.t F);  (* INPUT_INTRINSICS *)
  transforms_json : option (Manifest.t F)     (* OUTPUT_JSON *)
}.

Definition INPUT_POSES : string := "/data/torso/poses.json".
Definition INPUT_INTRINSICS : string := "/data/torso/intrinsics_rgb.json".
Definition OUTPUT_JSON : string := "/data/torso/transforms.json".

(** ** The program *)

Section Program.
Context {F : Type} {A : Arith F}.

(** *** Array operations *)

(** [m[:3, 3]] *)
Definition translation (m : mat4 F) : vec3 F :=
  Vec3 (c3 (r0 m)) (c3 (r1 m)) (c3 (r2 m)).

Definition set_c3 (r : row4 F) (x : F) : row4 F :=
  Row4 (c0 r) (c1 r) (c2 r) x.

(** [m[:3, 3] = v], in place: the other thirteen entries stay. *)
Definition set_translation (m : mat4 F) (v : vec3 F) : mat4 F :=
  Mat4 (set_c3 (r0 m) (vx v)) (set_c3 (r1 m) (vy v)) (set_c3 (r2 m) (vz v))
       (r3 m).

(** [m[:3, :3]] *)
Definition rotation (m : mat4 F) : vec3 F * vec3 F * vec3 F :=
  (Vec3 (c0 (r0 m)) (c1 (r0 m)) (c2 (r0 m)),
   Vec3 (c0 (r1 m)) (c1 (r1 m)) (c2 (r1 m)),
   Vec3 (c0 (r2 m)) (c1 (r2 m)) (c2 (r2 m))).

Definition vadd (u v : vec3 F) : vec3 F :=
  Vec3 (f_add (vx u) (vx v)) (f_add (vy u) (vy v)) (f_add (vz u) (vz v)).

Definition vsub (u v : vec3 F) : vec3 F :=
  Vec3 (f_sub (vx u) (vx v)) (f_sub (vy u) (vy v)) (f_sub (vz u) (vz v)).

Definition vscale (u : vec3 F) (s : F) : vec3 F :=
  Vec3 (f_mul (vx u) s) (f_mul (vy u) s) (f_mul (vz u) s).

Definition vdiv (u : vec3 F) (s : F) : vec3 F :=
  Vec3 (f_div (vx u) s) (f_div (vy u) s) (f_div (vz u) s).

Definition vzero : vec3 F := Vec3 f_zero f_zero f_zero.

(** [np.add.reduce(rows, axis=0)] as [np.mean] runs it: the rows added in
    order onto the identity 0.0 (so a column of -0.0 sums to +0.0). *)
Definition add_reduce (rows : list (vec3 F)) : vec3 F :=
  fold_left vadd rows vzero.

(** [np.mean(rows, axis=0)]: the column sums over the row count. *)
Definition np_mean (rows : list (vec3 F)) : vec3 F :=
  vdiv (add_reduce rows) (f_of_count (length rows)).

(** [np.max(xs)]; a ValueError on an empty array. *)
Definition np_max (xs : list F) : result F :=
  match xs with
  | [] => Raise ValueError
  | x :: rest => Return (fold_left f_maximum rest x)
  end.

(** [np.linalg.norm(v)] along the last axis:
    [sqrt(add.reduce(v * v))]. *)
Definition linalg_norm (v : vec3 F) : F :=
  f_sqrt (f_add (f_add (f_mul (vx v) (vx v)) (f_mul (vy v) (vy v)))
                (f_mul (vz v) (vz v))).

(** *** Step 1: the dict [output_data] (lines 26-44), here with a given
    ["frames"] list; the script starts it with the empty one *)

Definition output_header (intrinsics : Intrinsics.t F)
                         (frames : list (Manifest.frame F)) : Manifest.t F :=
  {| Manifest.fl_x := Intrinsics.fx intrinsics;
     Manifest.fl_y := Intrinsics.fy intrinsics;
     Manifest.cx := Intrinsics.cx intrinsics;
     Manifest.cy := Intrinsics.cy intrinsics;
     Manifest.w := Intrinsics.width intrinsics;
     Manifest.h := Intrinsics.height intrinsics;
     Manifest.sk_x := f_zero;
     Manifest.sk_y := f_zero;
     Manifest.k1 := f_zero;
     Manifest.k2 := f_zero;
     Manifest.p1 := f_zero;
     Manifest.p2 := f_zero;
     Manifest.is_fisheye := false;
     Manifest.sphere_center := [f_zero; f_zero; f_zero];
     Manifest.sphere_radius := f_one;
     Manifest.aabb_scale := 1%Z;
     Manifest.frames := frames |}.

(** *** Step 2: the first loop (lines 47-64) *)

Definition collect_step (st : list (mat4 F) * list (frame_buf F))
                        (frame : Poses.frame F)
  : list (mat4 F) * list (frame_buf F) :=
  let c2w := Poses.world_from_camera frame in
  (fst st ++ [c2w], snd st ++ [FrameBuf (Poses.rgb_path frame) c2w]).

Definition collect (frames : list (Poses.frame F))
  : list (mat4 F) * list (frame_buf F) :=
  fold_left collect_step frames ([], []).

(** *** Step 3: normalisation (lines 69-82) *)

(** [np.array(all_c2w)[:, :3, 3]].  The array of no matrices has shape
    (0,), and three indices into it are an IndexError. *)
Definition cam_centers_of (all_c2w : list (mat4 F)) : result (list (vec3 F)) :=
  match all_c2w with
  | [] => Raise IndexError
  | _ :: _ => Return (map translation all_c2w)
  end.

Record normalization : Type := Normalization {
  center : vec3 F;
  max_dist : F;
  scale_factor : F
}.

Definition normalize (all_c2w : list (mat4 F)) : result normalization :=
  cam_centers <- cam_centers_of all_c2w ;;
  let center := np_mean cam_centers in
  max_dist <- np_max (map (fun t => linalg_norm (vsub t center)) cam_centers) ;;
  Return (Normalization center max_dist (f_div f_two max_dist)).

(** *** Step 4: the second loop (lines 88-101) *)

(** [c2w[:3, 3] -= center; c2w[:3, 3] *= scale_factor].  Each frame owns
    its array ([np.array] made it in the first loop), and [center] was
    computed from the stacked copy [np.array(all_c2w)], so the update of
    one frame is seen by no other frame and not by [center]. *)
Definition apply_normalization (n : normalization) (c2w : mat4 F) : mat4 F :=
  let c2w := set_translation c2w (vsub (translation c2w) (center n)) in
  set_translation c2w (vscale (translation c2w) (scale_factor n)).

(** [output_data["frames"].append(f)] *)
Definition append_frame (output_data : Manifest.t F) (f : Manifest.frame F)
  : Manifest.t F :=
  {| Manifest.fl_x := Manifest.fl_x output_data;
     Manifest.fl_y := Manifest.fl_y output_data;
     Manifest.cx := Manifest.cx output_data;
     Manifest.cy := Manifest.cy output_data;
     Manifest.w := Manifest.w output_data;
     Manifest.h := Manifest.h output_data;
     Manifest.sk_x := Manifest.sk_x output_data;
     Manifest.sk_y := Manifest.sk_y output_data;
     Manifest.k1 := Manifest.k1 output_data;
     Manifest.k2 := Manifest.k2 output_data;
     Manifest.p1 := Manifest.p1 output_data;
     Manifest.p2 := Manifest.p2 output_data;
     Manifest.is_fisheye := Manifest.is_fisheye output_data;
     Manifest.sphere_center := Manifest.sphere_center output_data;
     Manifest.sphere_radius := Manifest.sphere_radius output_data;
     Manifest.aabb_scale := Manifest.aabb_scale output_data;
     Manifest.frames := Manifest.frames output_data ++ [f] |}.

Definition emit_step (n : normalization) (output_data : Manifest.t F)
                     (frame_buf : frame_buf F) : Manifest.t F :=
  let c2w := apply_normalization n (original_matrix frame_buf) in
  append_frame output_data (Manifest.Frame (file_path frame_buf) c2w).

Definition emit (n : normalization) (frames_buffer : list (frame_buf F))
                (output_data : Manifest.t F) : Manifest.t F :=
  fold_left (emit_step n) frames_buffer output_data.

(** *** The whole computation, up to the write (lines 21-101) *)

Definition convert (poses_data : Poses.t F) (intrinsics : Intrinsics.t F)
  : result (Manifest.t F) :=
  let '(all_c2w, frames_buffer) := collect (Poses.frames poses_data) in
  let output_data := output_header intrinsics [] in
  n <- normalize all_c2w ;;
  Return (emit n frames_buffer output_data).

Definition load_json {D : Type} (path : string) (file : option D) : result D :=
  match file with
  | Some d => Return d
  | None => Raise (FileNotFoundError path)
  end.

(** [main()]: the outcome and the file system it leaves.  The output
    file is opened only after everything else has returned;
    [json.dump] writes NaN and infinities as they are. *)
Definition main (fs : filesystem F) : result unit * filesystem F :=
  let computed :=
    poses_data <- load_json INPUT_POSES (poses_json fs) ;;
    intrinsics <- load_json INPUT_INTRINSICS (intrinsics_json fs) ;;
    convert poses_data intrinsics in
  match computed with
  | Raise e => (Raise e, fs)
  | Return output_data =>
      (Return tt,
       Files (poses_json fs) (intrinsics_json fs) (Some output_data))
  end.

(** Reading a manifest as a poses document: each [transform_matrix] as
    [world_from_camera], each [file_path] as [rgb_path]. *)
Definition as_poses (m : Manifest.t F) : Poses.t F :=
  Poses.Make
    (map (fun f => Poses.Frame (Manifest.file_path f)
                               (Manifest.transform_matrix f))
         (Manifest.frames m)).

(** *** Closed forms of the two loop bodies *)

(** What the first loop buffers for one input frame. *)
Definition buffered (frame : Poses.frame F) : frame_buf F :=
  FrameBuf (Poses.rgb_path frame) (Poses.world_from_camera frame).

(** What the second loop appends for one input frame. *)
Definition normalized_frame (n : normalization) (frame : Poses.frame F)
  : Manifest.frame F :=
  Manifest.Frame (Poses.rgb_path frame)
                 (apply_normalization n (Poses.world_from_camera frame)).

(** The translation column of an output frame. *)
Definition output_translation (f : Manifest.frame F) : vec3 F :=
  translation (Manifest.transform_matrix f).

End Program.

(** ** The normaliser in the words of its description, in float64 *)

Module Described.

(** The arithmetic mean of a column as float64 has it: the sum of the
    entries, accumulated in frame order from 0.0, over their count.  The
    sum rounds at each step and can overflow. *)
Definition column_mean (xs : list float) : float :=
  PrimFloat.div (fold_left PrimFloat.add xs PrimFloat.zero)
                (PrimFloat.of_uint63 (Uint63.of_Z (Z.of_nat (List.length xs)))).

(** The mean of the translation vectors, component by component. *)
Definition mean_translation (ts : list (vec3 float)) : vec3 float :=
  Vec3 (column_mean (map (@vx float) ts))
       (column_mean (map (@vy float) ts))
       (column_mean (map (@vz float) ts)).

Definition euclidean_norm (v : vec3 float) : float :=
  PrimFloat.sqrt
    (PrimFloat.add
       (PrimFloat.add (PrimFloat.mul (vx v) (vx v)) (PrimFloat.mul (vy v) (vy v)))
       (PrimFloat.mul (vz v) (vz v))).

(** The distance of a camera from a centre. *)
Definition distance_from (c : vec3 float) (m : mat4 float) : float :=
  euclidean_norm (Vec3 (PrimFloat.sub (c3 (r0 m)) (vx c))
                       (PrimFloat.sub (c3 (r1 m)) (vy c))
                       (PrimFloat.sub (c3 (r2 m)) (vz c))).

(** [M] is the maximum of [xs] in the order of float64: one of them, and
    every one of them is below or equal to it. *)
Definition is_maximum (M : float) (xs : list float) : Prop :=
  In M xs /\ forall x, In x xs -> PrimFloat.leb x M = true.

Definition has_nan (xs : list float) : Prop :=
  exists x, In x xs /\ PrimFloat.is_nan x = true.

(** A value that is no finite number: NaN or an infinity. *)
Definition not_finite (y : float) : Prop :=
  y = PrimFloat.nan \/ y = PrimFloat.infinity \/ y = PrimFloat.neg_infinity.

End Described.

(** ** The order of float64 on its specification *)

Module FloatOrder.

(** Where a float that is not NaN stands: its class and sign first, then
    exponent and mantissa (both negated below zero). *)
Definition rank (s : spec_float) : Z * (Z * Z) :=
  match s with
  | S754_nan => (0, (0, 0))%Z
  | S754_zero _ => (0, (0, 0))%Z
  | S754_infinity true => (-2, (0, 0))%Z
  | S754_infinity false => (2, (0, 0))%Z
  | S754_finite true m e => (-1, (- e, - Zpos m))%Z
  | S754_finite false m e => (1, (e, Zpos m))%Z
  end.

(** The lexicographic order of ranks. *)
Definition rank_le (a b : Z * (Z * Z)) : Prop :=
  (fst a < fst b \/
   (fst a = fst b /\
    (fst (snd a) < fst (snd b) \/
     (fst (snd a) = fst (snd b) /\ snd (snd a) <= snd (snd b)))))%Z.

End FloatOrder.

(** ** Concrete inputs *)

Module Samples.
Section Generic.
Context {F : Type} {A : Arith F}.

(** The identity rotation with a given translation. *)
Definition camera_at (x y z : F) : mat4 F :=
  Mat4 (Row4 f_one f_zero f_zero x)
       (Row4 f_zero f_one f_zero y)
       (Row4 f_zero f_zero f_one z)
       (Row4 f_zero f_zero f_zero f_one).

Definition four : F := f_add f_two f_two.

Definition intrinsics : Intrinsics.t F :=
  Intrinsics.Make (JFloat four) (JFloat four) (JFloat f_two) (JFloat f_one)
                  (JInt 640) (JInt 480).

(** Two frames, translations (0,0,0) and (4,0,0). *)
Definition two_cameras : Poses.t F :=
  Poses.Make
    [Poses.Frame "images/frame_00000.png" (camera_at f_zero f_zero f_zero);
     Poses.Frame "images/frame_00001.png" (camera_at four f_zero f_zero)].

(** Two frames, both translations (1,1,1). *)
Definition coincident_cameras : Poses.t F :=
  Poses.Make
    [Poses.Frame "images/frame_00000.png" (camera_at f_one f_one f_one);
     Poses.Frame "images/frame_00001.png" (camera_at f_one f_one f_one)].

Definition no_cameras : Poses.t F := Poses.Make [].

(** The manifest with translations (-2,0,0) and (2,0,0). *)
Definition two_cameras_manifest : Manifest.t F :=
  output_header intrinsics
    [Manifest.Frame "images/frame_00000.png"
                    (camera_at (f_sub f_zero f_two) f_zero f_zero);
     Manifest.Frame "images/frame_00001.png"
                    (camera_at f_two f_zero f_zero)].
End Generic.
End Samples.

(** ** More inputs *)

Module Variants.
Section Generic.
Context {F : Type} {A : Arith F}.

(** The two-camera sample with other rotation blocks. *)
Definition two_cameras_turned : Poses.t F :=
  Poses.Make
    [Poses.Frame "images/frame_00000.png"
       (Mat4 (Row4 f_zero f_one f_zero f_zero)
             (Row4 f_one f_zero f_zero f_zero)
             (Row4 f_zero f_zero f_one f_zero)
             (Row4 f_zero f_zero f_zero f_one));
     Poses.Frame "images/frame_00001.png"
       (Mat4 (Row4 f_zero f_zero f_one Samples.four)
             (Row4 f_zero f_one f_zero f_zero)
             (Row4 f_one f_zero f_zero f_zero)
             (Row4 f_zero f_zero f_zero f_one))].
End Generic.

(** Three frames at (1,2,3), (4,0,1) and (0,5,2). *)
Definition three_cameras : Poses.t float :=
  Poses.Make
    [Poses.Frame "images/frame_00000.png" (Samples.camera_at 1 2 3)%float;
     Poses.Frame "images/frame_00001.png" (Samples.camera_at 4 0 1)%float;
     Poses.Frame "images/frame_00002.png" (Samples.camera_at 0 5 2)%float].

(** Four frames on the x axis, at 1e16, 1, -1e16 and 1. *)
Definition far_and_near : Poses.t float :=
  Poses.Make
    [Poses.Frame "images/frame_00000.png" (Samples.camera_at 1e16 0 0)%float;
     Poses.Frame "images/frame_00001.png" (Samples.camera_at 1 0 0)%float;
     Poses.Frame "images/frame_00002.png" (Samples.camera_at (-1e16) 0 0)%float;
     Poses.Frame "images/frame_00003.png" (Samples.camera_at 1 0 0)%float].

(** The same four frames, the second and the third exchanged. *)
Definition far_and_near_reordered : Poses.t float :=
  Poses.Make
    [Poses.Frame "images/frame_00000.png" (Samples.camera_at 1e16 0 0)%float;
     Poses.Frame "images/frame_00002.png" (Samples.camera_at (-1e16) 0 0)%float;
     Poses.Frame "images/frame_00001.png" (Samples.camera_at 1 0 0)%float;
     Poses.Frame "images/frame_00003.png" (Samples.camera_at 1 0 0)%float].

(** Three frames, the middle one with a NaN in its translation. *)
Definition with_nan : Poses.t float :=
  Poses.Make
    [Poses.Frame "images/frame_00000.png" (Samples.camera_at 0 0 0)%float;
     Poses.Frame "images/frame_00001.png" (Samples.camera_at 1 nan 3)%float;
     Poses.Frame "images/frame_00002.png" (Samples.camera_at 4 0 0)%float].
End Variants.

(** ** The two loops as maps *)

Section Structure.
Context {F : Type} {A : Arith F}.

Lemma collect_from (frames : list (Poses.frame F)) :
  forall ms bs,
    fold_left collect_step frames (ms, bs) =
    (ms ++ map (@Poses.world_from_camera F) frames, bs ++ map buffered frames).
Proof.
  induction frames as [|f fs IH]; intros ms bs; simpl.
  - now rewrite !app_nil_r.
  - unfold collect_step at 2; simpl. rewrite IH, <- !app_assoc. reflexivity.
Qed.

Lemma collect_eq (frames : list (Poses.frame F)) :
  collect frames =
  (map (@Poses.world_from_camera F) frames, map buffered frames).
Proof. unfold collect. now rewrite collect_from. Qed.

Lemma emit_from (n : normalization) (i : Intrinsics.t F)
      (bs : list (frame_buf F)) :
  forall out,
    fold_left (emit_step n) bs (output_header i out) =
    output_header i
      (out ++ map (fun b => Manifest.Frame (file_path b)
                              (apply_normalization n (original_matrix b))) bs).
Proof.
  induction bs as [|b bs IH]; intros out; simpl.
  - now rewrite app_nil_r.
  - change (emit_step n (output_header i out) b)
      with (output_header i
              (out ++ [Manifest.Frame (file_path b)
                         (apply_normalization n (original_matrix b))])).
    rewrite IH. now rewrite <- app_assoc.
Qed.

Lemma emit_buffered (n : normalization) (i : Intrinsics.t F)
      (frames : list (Poses.frame F)) :
  emit n (map buffered frames) (output_header i []) =
  output_header i (map (normalized_frame n) frames).
Proof.
  unfold emit. rewrite emit_from. simpl. now rewrite map_map.
Qed.

Lemma convert_eq (p : Poses.t F) (i : Intrinsics.t F) :
  convert p i =
  (n <- normalize (map (@Poses.world_from_camera F) (Poses.frames p)) ;;
   Return (output_header i (map (normalized_frame n) (Poses.frames p)))).
Proof.
  unfold convert. rewrite collect_eq.
  destruct (normalize _) as [n|e]; simpl; [|reflexivity].
  now rewrite emit_buffered.
Qed.

(** On at least one matrix the normaliser returns, and what it returns
    is read off its three lines. *)
Lemma normalize_cons (m : mat4 F) (ms : list (mat4 F)) :
  let cs := map translation (m :: ms) in
  let c := np_mean cs in
  let d := fun t => linalg_norm (vsub t c) in
  let mx := fold_left f_maximum (map d (map translation ms)) (d (translation m)) in
  normalize (m :: ms) = Return (Normalization c mx (f_div f_two mx)).
Proof. reflexivity. Qed.

Lemma normalize_returns (ms : list (mat4 F)) :
  ms <> [] -> exists n, normalize ms = Return n.
Proof.
  destruct ms as [|m ms]; [congruence|]. intros _.
  eexists. apply normalize_cons.
Qed.

Lemma normalize_inv (ms : list (mat4 F)) (n : normalization) :
  normalize ms = Return n ->
  ms <> [] /\
  center n = np_mean (map translation ms) /\
  np_max (map (fun t => linalg_norm (vsub t (center n))) (map translation ms))
    = Return (max_dist n) /\
  scale_factor n = f_div f_two (max_dist n).
Proof.
  destruct ms as [|m ms]; [discriminate|].
  rewrite normalize_cons. intros H. injection H as <-. simpl.
  repeat split; congruence.
Qed.

Lemma convert_returns (p : Poses.t F) (i : Intrinsics.t F) (n : normalization) :
  normalize (map (@Poses.world_from_camera F) (Poses.frames p)) = Return n ->
  convert p i =
  Return (output_header i (map (normalized_frame n) (Poses.frames p))).
Proof. intros H. now rewrite convert_eq, H. Qed.

Lemma main_writes (p : Poses.t F) (i : Intrinsics.t F)
      (old : option (Manifest.t F)) (out : Manifest.t F) :
  convert p i = Return out ->
  main (Files (Some p) (Some i) old) =
  (Return tt, Files (Some p) (Some i) (Some out)).
Proof. intros H. unfold main. simpl. now rewrite H. Qed.

Lemma main_on_frames (p : Poses.t F) (i : Intrinsics.t F)
      (old : option (Manifest.t F)) :
  Poses.frames p <> [] ->
  exists n,
    normalize (map (@Poses.world_from_camera F) (Poses.frames p)) = Return n /\
    main (Files (Some p) (Some i) old) =
    (Return tt,
     Files (Some p) (Some i)
           (Some (output_header i (map (normalized_frame n) (Poses.frames p))))).
Proof.
  intros Hne.
  destruct (normalize_returns (ms := map (@Poses.world_from_camera F) (Poses.frames p)))
    as [n Hn].
  { destruct (Poses.frames p); [congruence|discriminate]. }
  exists n. split; [exact Hn|].
  apply main_writes, convert_returns, Hn.
Qed.

(** The in-place update touches the translation column only. *)
Lemma apply_normalization_rotation (n : normalization) (m : mat4 F) :
  rotation (apply_normalization n m) = rotation m.
Proof. reflexivity. Qed.

Lemma apply_normalization_bottom (n : normalization) (m : mat4 F) :
  r3 (apply_normalization n m) = r3 m.
Proof. reflexivity. Qed.

Lemma apply_normalization_translation (n : normalization) (m : mat4 F) :
  translation (apply_normalization n m) =
  vscale (vsub (translation m) (center n)) (scale_factor n).
Proof. reflexivity. Qed.

End Structure.

(** ** Properties that hold in either arithmetic *)

Section Manifest_shape.
Context {F : Type} {A : Arith F}.

Lemma Forall2_map_r {X Y : Type} (P : X -> Y -> Prop) (f : X -> Y) (l : list X) :
  (forall x, P x (f x)) -> Forall2 P l (map f l).
Proof. intros H. induction l; simpl; constructor; auto. Qed.

(** C1.  On a pose file with at least one frame the script writes a
    manifest whose frames are as many as the input's, and whose file
    paths are the input's [rgb_path]s in the input's order. *)
Theorem frames_keep_input_order
        (p : Poses.t F) (i : Intrinsics.t F) (old : option (Manifest.t F)) :
  Poses.frames p <> [] ->
  exists out,
    main (Files (Some p) (Some i) old) =
      (Return tt, Files (Some p) (Some i) (Some out)) /\
    List.length (Manifest.frames out) = List.length (Poses.frames p) /\
    map (@Manifest.file_path F) (Manifest.frames out) =
      map (@Poses.rgb_path F) (Poses.frames p).
Proof.
  intros Hne. destruct (main_on_frames p i old Hne) as [n [_ Hmain]].
  eexists. split; [exact Hmain|]. simpl. split.
  - apply length_map.
  - rewrite map_map. reflexivity.
Qed.

(** C4.  Each output matrix is the input matrix of the same position with
    its translation column replaced: the rotation block and the bottom
    row are the input's, entry for entry. *)
Theorem rotation_block_preserved
        (p : Poses.t F) (i : Intrinsics.t F) (old : option (Manifest.t F)) :
  Poses.frames p <> [] ->
  exists out,
    main (Files (Some p) (Some i) old) =
      (Return tt, Files (Some p) (Some i) (Some out)) /\
    Forall2 (fun fin fout =>
               rotation (Manifest.transform_matrix fout) =
                 rotation (Poses.world_from_camera fin) /\
               Manifest.transform_matrix fout =
                 set_translation (Poses.world_from_camera fin)
                                 (output_translation fout))
            (Poses.frames p) (Manifest.frames out).
Proof.
  intros Hne. destruct (main_on_frames p i old Hne) as [n [_ Hmain]].
  eexists. split; [exact Hmain|]. simpl.
  apply Forall2_map_r. intros f. split; reflexivity.
Qed.

(** C9.  The manifest copies the six intrinsics and fixes the other
    header fields. *)
Theorem manifest_header_fields
        (p : Poses.t F) (i : Intrinsics.t F) (old : option (Manifest.t F)) :
  Poses.frames p <> [] ->
  exists out,
    main (Files (Some p) (Some i) old) =
      (Return tt, Files (Some p) (Some i) (Some out)) /\
    Manifest.fl_x out = Intrinsics.fx i /\
    Manifest.fl_y out = Intrinsics.fy i /\
    Manifest.cx out = Intrinsics.cx i /\
    Manifest.cy out = Intrinsics.cy i /\
    Manifest.w out = Intrinsics.width i /\
    Manifest.h out = Intrinsics.height i /\
    Manifest.sk_x out = f_zero /\ Manifest.sk_y out = f_zero /\
    Manifest.k1 out = f_zero /\ Manifest.k2 out = f_zero /\
    Manifest.p1 out = f_zero /\ Manifest.p2 out = f_zero /\
    Manifest.is_fisheye out = false /\
    Manifest.sphere_center out = [f_zero; f_zero; f_zero] /\
    Manifest.sphere_radius out = f_one /\
    Manifest.aabb_scale out = 1%Z.
Proof.
  intros Hne. destruct (main_on_frames p i old Hne) as [n [_ Hmain]].
  eexists. split; [exact Hmain|]. simpl. repeat split.
Qed.

(** C10.  On an empty [frames] array the normaliser raises an IndexError
    where it slices the translations, [main] stops there, and the file
    system is as it was: nothing is written to the output path. *)
Theorem empty_frames_index_error
        (p : Poses.t F) (i : Intrinsics.t F) (old : option (Manifest.t F)) :
  Poses.frames p = [] ->
  normalize (map (@Poses.world_from_camera F) (Poses.frames p)) =
    Raise IndexError /\
  main (Files (Some p) (Some i) old) =
    (Raise IndexError, Files (Some p) (Some i) old).
Proof.
  intros He. unfold main. simpl. rewrite convert_eq, He. simpl.
  split; reflexivity.
Qed.

End Manifest_shape.

(** The order and count property at the two-camera sample, in binary64. *)
Lemma frames_keep_input_order_witness :
  exists out,
    main (Files (Some (Samples.two_cameras (F := float)))
                (Some Samples.intrinsics) None) =
      (Return tt,
       Files (Some Samples.two_cameras) (Some Samples.intrinsics) (Some out)) /\
    List.length (Manifest.frames out) = 2%nat /\
    map (@Manifest.file_path float) (Manifest.frames out) =
      ["images/frame_00000.png"%string; "images/frame_00001.png"%string].
Proof.
  apply (frames_keep_input_order
           (Samples.two_cameras (F := float)) Samples.intrinsics None).
  simpl. discriminate.
Defined.

(** The rotation property at the two-camera sample, in binary64. *)
Lemma rotation_block_preserved_witness :
  exists out,
    main (Files (Some (Samples.two_cameras (F := float)))
                (Some Samples.intrinsics) None) =
      (Return tt,
       Files (Some Samples.two_cameras) (Some Samples.intrinsics) (Some out)) /\
    Forall2 (fun fin fout =>
               rotation (Manifest.transform_matrix fout) =
                 rotation (Poses.world_from_camera fin) /\
               Manifest.transform_matrix fout =
                 set_translation (Poses.world_from_camera fin)
                                 (output_translation fout))
            (Poses.frames (Samples.two_cameras (F := float)))
            (Manifest.frames out).
Proof.
  apply (rotation_block_preserved
           (Samples.two_cameras (F := float)) Samples.intrinsics None).
  simpl. discriminate.
Defined.

(** The header at the sample intrinsics, in binary64. *)
Lemma manifest_header_fields_witness :
  exists out,
    main (Files (Some (Samples.two_cameras (F := float)))
                (Some Samples.intrinsics) None) =
      (Return tt,
       Files (Some Samples.two_cameras) (Some Samples.intrinsics) (Some out)) /\
    Manifest.fl_x out = JFloat 4%float /\
    Manifest.fl_y out = JFloat 4%float /\
    Manifest.cx out = JFloat 2%float /\
    Manifest.cy out = JFloat 1%float /\
    Manifest.w out = JInt 640 /\
    Manifest.h out = JInt 480 /\
    Manifest.sk_x out = 0%float /\ Manifest.sk_y out = 0%float /\
    Manifest.k1 out = 0%float /\ Manifest.k2 out = 0%float /\
    Manifest.p1 out = 0%float /\ Manifest.p2 out = 0%float /\
    Manifest.is_fisheye out = false /\
    Manifest.sphere_center out = [0%float; 0%float; 0%float] /\
    Manifest.sphere_radius out = 1%float /\
    Manifest.aabb_scale out = 1%Z.
Proof.
  assert (Hne : Poses.frames (Samples.two_cameras (F := float)) <> [])
    by (simpl; discriminate).
  exact (manifest_header_fields
           (Samples.two_cameras (F := float)) Samples.intrinsics None Hne).
Defined.

(** The empty pose file, with no output file before the run and none after. *)
Lemma empty_frames_index_error_witness :
  normalize (map (@Poses.world_from_camera float)
                 (Poses.frames (Samples.no_cameras (F := float)))) =
    Raise IndexError /\
  main (Files (Some (Samples.no_cameras (F := float)))
              (Some Samples.intrinsics) None) =
    (Raise IndexError,
     Files (Some Samples.no_cameras) (Some Samples.intrinsics) None).
Proof.
  apply (empty_frames_index_error
           (Samples.no_cameras (F := float)) Samples.intrinsics None).
  reflexivity.
Defined.

(** ** The two-camera scenario over the reals *)

Section Exact_normalized.
Open Scope R_scope.

(** Two cameras at (0,0,0) and (4,0,0), whatever their other entries. *)
Lemma exact_two_frames_normalize (m1 m2 : mat4 R) (x : R) :
  x = 4 ->
  normalize [set_translation m1 (Vec3 0 0 0); set_translation m2 (Vec3 x 0 0)] =
  Return (Normalization (Vec3 2 0 0) 2 1).
Proof.
  intros ->. rewrite normalize_cons. cbv zeta.
  assert (Hc : np_mean (map translation
                 [set_translation m1 (Vec3 0 0 0);
                  set_translation m2 (Vec3 4 0 0)]) = Vec3 2 0 0).
  { unfold np_mean, vdiv. simpl. f_equal; lra. }
  rewrite Hc. simpl. unfold linalg_norm. simpl.
  replace ((0 - 2) * (0 - 2) + (0 - 0) * (0 - 0) + (0 - 0) * (0 - 0))
    with (2 * 2) by ring.
  replace ((4 - 2) * (4 - 2) + (0 - 0) * (0 - 0) + (0 - 0) * (0 - 0))
    with (2 * 2) by ring.
  rewrite sqrt_square by lra.
  rewrite Rmax_left by lra.
  do 2 f_equal. lra.
Qed.

End Exact_normalized.

(** ** IEEE binary64: concrete runs and the coincident case *)

Section Binary64.
Open Scope float_scope.

Lemma binary64_coincident_normalize :
  normalize (map (@Poses.world_from_camera float)
                 (Poses.frames (Samples.coincident_cameras (F := float)))) =
  Return (Normalization (Vec3 1 1 1) 0 infinity).
Proof. vm_compute. reflexivity. Qed.

Lemma binary64_two_cameras_normalize :
  normalize (map (@Poses.world_from_camera float)
                 (Poses.frames (Samples.two_cameras (F := float)))) =
  Return (Normalization (Vec3 2 0 0) 2 1).
Proof. vm_compute. reflexivity. Qed.

(** C5, amended.  When [max_dist] is zero the script raises nothing: the
    scale factor is +infinity, every output translation is the centred
    translation times +infinity, and the manifest is written. *)
Theorem zero_max_dist_no_error
        (p : Poses.t float) (i : Intrinsics.t float)
        (old : option (Manifest.t float)) (n : normalization) :
  normalize (map (@Poses.world_from_camera float) (Poses.frames p)) = Return n ->
  max_dist n = 0 ->
  scale_factor n = infinity /\
  exists out,
    main (Files (Some p) (Some i) old) =
      (Return tt, Files (Some p) (Some i) (Some out)) /\
    Forall2 (fun fin fout =>
               output_translation fout =
               vscale (vsub (translation (Poses.world_from_camera fin))
                            (center n)) infinity)
            (Poses.frames p) (Manifest.frames out).
Proof.
  intros Hn Hz.
  destruct (normalize_inv _ Hn) as (_ & _ & _ & Hs).
  assert (Hinf : scale_factor n = infinity).
  { rewrite Hs, Hz. reflexivity. }
  split; [exact Hinf|].
  exists (output_header i (map (normalized_frame n) (Poses.frames p))).
  split; [apply main_writes, convert_returns, Hn|].
  simpl. apply Forall2_map_r. intros f.
  unfold output_translation, normalized_frame. simpl.
  rewrite apply_normalization_translation, Hinf. reflexivity.
Qed.

(** C7.  Two frames with translations (0,0,0) and (4,0,0), whatever the
    other entries of their matrices: centre (2,0,0), [max_dist] 2, scale
    factor 1, and output translations (-2,0,0) and (2,0,0) in that
    order; in binary64 and in exact arithmetic. *)
Theorem two_cameras_scenario :
  (forall (m1 m2 : mat4 float) (path1 path2 : string)
          (i : Intrinsics.t float) (old : option (Manifest.t float)),
      let p := Poses.Make
                 [Poses.Frame path1 (set_translation m1 (Vec3 0 0 0));
                  Poses.Frame path2 (set_translation m2 (Vec3 4 0 0))] in
      normalize (map (@Poses.world_from_camera float) (Poses.frames p)) =
        Return (Normalization (Vec3 2 0 0) 2 1) /\
      exists out,
        main (Files (Some p) (Some i) old) =
          (Return tt, Files (Some p) (Some i) (Some out)) /\
        map output_translation (Manifest.frames out) =
          [Vec3 (-2) 0 0; Vec3 2 0 0]) /\
  (forall (m1 m2 : mat4 R) (path1 path2 : string)
          (i : Intrinsics.t R) (old : option (Manifest.t R)),
      let p := Poses.Make
                 [Poses.Frame path1 (set_translation m1 (Vec3 0 0 0)%R);
                  Poses.Frame path2 (set_translation m2 (Vec3 4 0 0)%R)] in
      normalize (map (@Poses.world_from_camera R) (Poses.frames p)) =
        Return (Normalization (Vec3 2 0 0) 2 1)%R /\
      exists out,
        main (Files (Some p) (Some i) old) =
          (Return tt, Files (Some p) (Some i) (Some out)) /\
        map output_translation (Manifest.frames out) =
          [Vec3 (-2) 0 0; Vec3 2 0 0]%R).
Proof.
  split; intros m1 m2 path1 path2 i old p.
  - assert (Hn : normalize (map (@Poses.world_from_camera float) (Poses.frames p)) =
                 Return (Normalization (Vec3 2 0 0) 2 1))
      by (vm_compute; reflexivity).
    split; [exact Hn|].
    exists (output_header i
              (map (normalized_frame (Normalization (Vec3 2 0 0) 2 1))
                   (Poses.frames p))).
    split; [apply main_writes, convert_returns, Hn|].
    vm_compute. reflexivity.
  - assert (Hn : normalize (map (@Poses.world_from_camera R) (Poses.frames p)) =
                 Return (Normalization (Vec3 2 0 0) 2 1)%R)
      by (apply exact_two_frames_normalize; reflexivity).
    split; [exact Hn|].
    exists (output_header i
              (map (normalized_frame (Normalization (Vec3 2 0 0) 2 1)%R)
                   (Poses.frames p))).
    split; [apply main_writes, convert_returns, Hn|].
    simpl. unfold output_translation. simpl.
    rewrite !apply_normalization_translation. unfold vscale, vsub. simpl.
    f_equal; [f_equal; lra|f_equal; f_equal; lra].
Qed.

End Binary64.

(** The coincident sample: [max_dist] is 0 and the run ends normally. *)
Lemma zero_max_dist_no_error_witness :
  infinity = infinity /\
  exists out,
    main (Files (Some (Samples.coincident_cameras (F := float)))
                (Some Samples.intrinsics) None) =
      (Return tt,
       Files (Some Samples.coincident_cameras) (Some Samples.intrinsics)
             (Some out)) /\
    Forall2 (fun fin fout =>
               output_translation fout =
               vscale (vsub (translation (Poses.world_from_camera fin))
                            (Vec3 1 1 1)%float) infinity)
            (Poses.frames (Samples.coincident_cameras (F := float)))
            (Manifest.frames out).
Proof.
  apply (zero_max_dist_no_error
           (Samples.coincident_cameras (F := float)) Samples.intrinsics None
           (n := Normalization (Vec3 1 1 1) 0 infinity)%float).
  - vm_compute. reflexivity.
  - reflexivity.
Defined.

(** ** The coincident case and the second run, evaluated *)

Section Evaluated.
Open Scope float_scope.

(** Two frames at (1,1,1): the run ends normally and the manifest it
    writes has NaN in every translation entry. *)
Lemma coincident_cameras_emit_nan :
  normalize (map (@Poses.world_from_camera float)
                 (Poses.frames (Samples.coincident_cameras (F := float)))) =
    Return (Normalization (Vec3 1 1 1) 0 infinity) /\
  exists out,
    main (Files (Some (Samples.coincident_cameras (F := float)))
                (Some Samples.intrinsics) None) =
      (Return tt,
       Files (Some Samples.coincident_cameras) (Some Samples.intrinsics)
             (Some out)) /\
    map output_translation (Manifest.frames out) =
      [Vec3 nan nan nan; Vec3 nan nan nan].
Proof.
  split; [exact binary64_coincident_normalize|].
  eexists. split.
  - apply main_writes, convert_returns, binary64_coincident_normalize.
  - vm_compute. reflexivity.
Qed.



(** Translations (0,0,0) and (4,0,0): the second run, on the manifest of
    the first, has the scale factor of the first and writes the very
    same manifest. *)
Lemma second_run_same_scale :
  exists n1 n2,
    normalize (map (@Poses.world_from_camera float)
                   (Poses.frames (Samples.two_cameras (F := float)))) =
      Return n1 /\
    main (Files (Some (Samples.two_cameras (F := float)))
                (Some (Samples.intrinsics (F := float))) None) =
      (Return tt,
       Files (Some (Samples.two_cameras (F := float))) (Some (Samples.intrinsics (F := float)))
             (Some (Samples.two_cameras_manifest (F := float)))) /\
    normalize (map (@Poses.world_from_camera float)
                   (Poses.frames (as_poses (Samples.two_cameras_manifest (F := float))))) =
      Return n2 /\
    scale_factor n1 = scale_factor n2 /\
    main (Files (Some (as_poses (Samples.two_cameras_manifest (F := float))))
                (Some (Samples.intrinsics (F := float)))
                (Some (Samples.two_cameras_manifest (F := float)))) =
      (Return tt,
       Files (Some (as_poses (Samples.two_cameras_manifest (F := float))))
             (Some (Samples.intrinsics (F := float)))
             (Some (Samples.two_cameras_manifest (F := float)))).
Proof.
  exists (Normalization (Vec3 2 0 0) 2 1), (Normalization (Vec3 0 0 0) 2 1).
  repeat split; vm_compute; reflexivity.
Qed.

End Evaluated.

(** ** Missing files, reruns, and what the normaliser reads *)

Section Outcomes.
Context {F : Type} {A : Arith F}.

(** X1.  A missing input file is reported as such and nothing is written:
    the pose file first, whatever the state of the intrinsics file; the
    intrinsics file next, before the frames are looked at (so also when
    the frames array is empty). *)
Theorem missing_input_reported
        (ins : option (Intrinsics.t F)) (p : Poses.t F)
        (old : option (Manifest.t F)) :
  main (Files None ins old) =
    (Raise (FileNotFoundError INPUT_POSES), Files None ins old) /\
  main (Files (Some p) None old) =
    (Raise (FileNotFoundError INPUT_INTRINSICS), Files (Some p) None old).
Proof. split; reflexivity. Qed.

(** X3.  A run never changes the two input files; what it writes does not
    depend on what was at the output path; and a second run on the file
    system the first one left ends the same way and leaves it as it is. *)
Theorem main_rerun (fs : filesystem F) :
  poses_json (snd (main fs)) = poses_json fs /\
  intrinsics_json (snd (main fs)) = intrinsics_json fs /\
  (forall old,
      fst (main (Files (poses_json fs) (intrinsics_json fs) old)) = fst (main fs) /\
      (fst (main fs) = Return tt ->
       snd (main (Files (poses_json fs) (intrinsics_json fs) old)) =
       snd (main fs))) /\
  main (snd (main fs)) = main fs.
Proof.
  destruct fs as [[p|] [i|] old]; unfold main; simpl;
    try (repeat (split || intro); reflexivity || discriminate).
  destruct (convert p i) as [out|e] eqn:Hc; simpl; rewrite ?Hc; simpl;
    repeat (split || intro); reflexivity || discriminate.
Qed.

(** X4.  The centre, [max_dist] and the scale factor depend on the
    translation columns only: two pose sets with the same translations, in
    order, get the same normalisation whatever their other entries. *)
Theorem normalize_ignores_rotation (ms ms' : list (mat4 F)) :
  map translation ms = map translation ms' ->
  normalize ms = normalize ms'.
Proof.
  intros H.
  destruct ms as [|m ms], ms' as [|m' ms']; try discriminate; [reflexivity|].
  unfold normalize.
  change (cam_centers_of (m :: ms)) with (Return (map translation (m :: ms))).
  change (cam_centers_of (m' :: ms')) with (Return (map translation (m' :: ms'))).
  now rewrite H.
Qed.

End Outcomes.

(** ** IEEE binary64: a NaN in one translation *)

Section Binary64_nan.
Open Scope float_scope.

Lemma Return_inj {X : Type} (a b : X) : Return a = Return b -> a = b.
Proof. intros H. now injection H. Qed.

Lemma Prim2SF_nan : Prim2SF nan = S754_nan.
Proof. reflexivity. Qed.

Lemma add_nan_l (y : float) : nan + y = nan.
Proof.
  apply Prim2SF_inj. rewrite add_spec, Prim2SF_nan. reflexivity.
Qed.

Lemma add_nan_r (x : float) : x + nan = nan.
Proof.
  apply Prim2SF_inj. rewrite add_spec, Prim2SF_nan.
  destruct (Prim2SF x); reflexivity.
Qed.

Lemma sub_nan_r (x : float) : x - nan = nan.
Proof.
  apply Prim2SF_inj. rewrite sub_spec, Prim2SF_nan.
  destruct (Prim2SF x); reflexivity.
Qed.

Lemma mul_nan_l (y : float) : nan * y = nan.
Proof.
  apply Prim2SF_inj. rewrite mul_spec, Prim2SF_nan. reflexivity.
Qed.

Lemma mul_nan_r (x : float) : x * nan = nan.
Proof.
  apply Prim2SF_inj. rewrite mul_spec, Prim2SF_nan.
  destruct (Prim2SF x); reflexivity.
Qed.

Lemma div_nan_l (y : float) : nan / y = nan.
Proof.
  apply Prim2SF_inj. rewrite div_spec, Prim2SF_nan. reflexivity.
Qed.

Lemma div_nan_r (x : float) : x / nan = nan.
Proof.
  apply Prim2SF_inj. rewrite div_spec, Prim2SF_nan.
  destruct (Prim2SF x); reflexivity.
Qed.

(** A sum of rows with a NaN in one column has a NaN in that column. *)
Lemma vadd_from_nan (proj : vec3 float -> float) (ts : list (vec3 float)) :
  (forall u v, proj (vadd u v) = proj u + proj v) ->
  forall v,
    proj v = nan \/ (exists t, In t ts /\ proj t = nan) ->
    proj (fold_left vadd ts v) = nan.
Proof.
  intros Hp. induction ts as [|t ts IH]; intros v H; simpl.
  - destruct H as [H|(t & [] & _)]. exact H.
  - apply IH. destruct H as [H|(t' & [<-|Hin] & Ht)].
    + left. rewrite Hp, H. apply add_nan_l.
    + left. rewrite Hp, Ht. apply add_nan_r.
    + right. now exists t'.
Qed.

Lemma np_mean_nan (proj : vec3 float -> float) (ts : list (vec3 float)) :
  (forall u v, proj (vadd u v) = proj u + proj v) ->
  (forall u s, proj (vdiv u s) = proj u / s) ->
  (exists t, In t ts /\ proj t = nan) ->
  proj (np_mean ts) = nan.
Proof.
  intros Hp Hd (t & Hin & Ht). unfold np_mean, add_reduce. rewrite Hd.
  rewrite (vadd_from_nan proj ts Hp).
  - apply div_nan_l.
  - right. now exists t.
Qed.

(** The distance from a centre with a NaN component is NaN. *)
Lemma linalg_norm_nan (t c : vec3 float) :
  vx c = nan \/ vy c = nan \/ vz c = nan ->
  linalg_norm (vsub t c) = nan.
Proof.
  intros H. unfold linalg_norm, vsub. simpl.
  destruct H as [H|[H|H]]; rewrite H, sub_nan_r, mul_nan_l;
    repeat (rewrite add_nan_l || rewrite add_nan_r); reflexivity.
Qed.

Lemma maximum_of_nans (xs : list float) :
  (forall x, In x xs -> x = nan) -> fold_left f_maximum xs nan = nan.
Proof.
  induction xs as [|x xs IH]; intros H; simpl; [reflexivity|].
  rewrite (H x) by now left.
  change (f_maximum nan nan) with nan. apply IH.
  intros y Hy. apply H. now right.
Qed.

(** X12.  In binary64, if any component of any camera translation is NaN,
    then [max_dist] and the scale factor are NaN, no exception is raised,
    and the manifest is written with NaN in every component of every
    translation, those of the clean frames included. *)
Theorem nan_translation_poisons_all
        (p : Poses.t float) (i : Intrinsics.t float)
        (old : option (Manifest.t float)) (f : Poses.frame float) :
  In f (Poses.frames p) ->
  vx (translation (Poses.world_from_camera f)) = nan \/
  vy (translation (Poses.world_from_camera f)) = nan \/
  vz (translation (Poses.world_from_camera f)) = nan ->
  exists n out,
    normalize (map (@Poses.world_from_camera float) (Poses.frames p)) = Return n /\
    max_dist n = nan /\ scale_factor n = nan /\
    main (Files (Some p) (Some i) old) =
      (Return tt, Files (Some p) (Some i) (Some out)) /\
    List.length (Manifest.frames out) = List.length (Poses.frames p) /\
    Forall (fun fout => output_translation fout = Vec3 nan nan nan)
           (Manifest.frames out).
Proof.
  intros Hin Hnan.
  assert (Hne : Poses.frames p <> []) by (intros He; rewrite He in Hin; destruct Hin).
  destruct (main_on_frames p i old Hne) as [n [Hn Hmain]].
  destruct (normalize_inv _ Hn) as (_ & Hc & Hmax & Hs).
  assert (Ht : In (translation (Poses.world_from_camera f))
                  (map translation
                       (map (@Poses.world_from_camera float) (Poses.frames p)))).
  { apply in_map. now apply in_map. }
  assert (Hcn : vx (center n) = nan \/ vy (center n) = nan \/ vz (center n) = nan).
  { rewrite Hc.
    destruct Hnan as [H|[H|H]]; [left|right; left|right; right];
      (apply np_mean_nan;
       [intros [? ? ?] [? ? ?]; reflexivity
       |intros [? ? ?] ?; reflexivity
       |eexists; split; [exact Ht|exact H]]). }
  assert (HM : max_dist n = nan).
  { destruct (map translation
                  (map (@Poses.world_from_camera float) (Poses.frames p)))
      as [|t ts]; [destruct Ht|].
    apply Return_inj in Hmax. rewrite <- Hmax. cbn [map].
    rewrite (linalg_norm_nan t _ Hcn). apply maximum_of_nans.
    intros x Hx. apply in_map_iff in Hx. destruct Hx as (t' & <- & _).
    now apply linalg_norm_nan. }
  assert (HS : scale_factor n = nan).
  { rewrite Hs, HM. apply div_nan_r. }
  exists n. eexists. split; [exact Hn|]. split; [exact HM|].
  split; [exact HS|]. split; [exact Hmain|]. simpl. split.
  - apply length_map.
  - apply Forall_forall. intros fout Hf. apply in_map_iff in Hf.
    destruct Hf as (fin & <- & _).
    change (output_translation (normalized_frame n fin))
      with (vscale (vsub (translation (Poses.world_from_camera fin)) (center n))
                   (scale_factor n)).
    rewrite HS. unfold vscale. simpl. now rewrite !mul_nan_r.
Qed.

End Binary64_nan.

(** ** The properties above at concrete inputs *)

(** The two-camera sample and the same positions with other rotations. *)
Lemma normalize_ignores_rotation_witness :
  normalize (map (@Poses.world_from_camera float)
                 (Poses.frames (Samples.two_cameras (F := float)))) =
  normalize (map (@Poses.world_from_camera float)
                 (Poses.frames (Variants.two_cameras_turned (F := float)))).
Proof.
  apply (normalize_ignores_rotation
           (map (@Poses.world_from_camera float)
                (Poses.frames (Samples.two_cameras (F := float))))
           (map (@Poses.world_from_camera float)
                (Poses.frames (Variants.two_cameras_turned (F := float))))).
  vm_compute. reflexivity.
Defined.

(** Three frames, the second at (1, NaN, 3). *)
Lemma nan_translation_poisons_all_witness :
  exists n out,
    normalize (map (@Poses.world_from_camera float)
                   (Poses.frames Variants.with_nan)) = Return n /\
    max_dist n = nan /\ scale_factor n = nan /\
    main (Files (Some Variants.with_nan)
                (Some (Samples.intrinsics (F := float))) None) =
      (Return tt,
       Files (Some Variants.with_nan)
             (Some (Samples.intrinsics (F := float))) (Some out)) /\
    List.length (Manifest.frames out) =
      List.length (Poses.frames Variants.with_nan) /\
    Forall (fun fout => output_translation fout = Vec3 nan nan nan)
           (Manifest.frames out).
Proof.
  apply (nan_translation_poisons_all
           Variants.with_nan (Samples.intrinsics (F := float)) None
           (Poses.Frame "images/frame_00001.png"
                        (Samples.camera_at 1 nan 3)%float)).
  - simpl. right. left. reflexivity.
  - right. left. reflexivity.
Defined.

(** ** IEEE binary64: the order that [np.max] follows *)

Section Binary64_order.
Import FloatOrder.

Lemma SFleb_rank (s1 s2 : spec_float) :
  s1 <> S754_nan -> s2 <> S754_nan ->
  (SFleb s1 s2 = true <-> rank_le (rank s1) (rank s2)).
Proof.
  intros H1 H2. unfold SFleb, SFcompare, rank_le.
  destruct s1 as [b1|b1| |b1 m1 e1], s2 as [b2|b2| |b2 m2 e2];
    try congruence;
    try destruct b1; try destruct b2; cbn [rank fst snd];
    try (split; [intros _; lia|reflexivity]);
    try (split; [discriminate|intros H; exfalso; lia]).
  - change (Pos.compare_cont Eq m1 m2) with (Pos.compare m1 m2).
    destruct (Z.compare_spec e1 e2); [destruct (Pos.compare_spec m1 m2)| |];
      simpl; split; intros H'; try reflexivity; try discriminate; lia.
  - change (Pos.compare_cont Eq m1 m2) with (Pos.compare m1 m2).
    destruct (Z.compare_spec e1 e2); [destruct (Pos.compare_spec m1 m2)| |];
      simpl; split; intros H'; try reflexivity; try discriminate; lia.
Qed.

Lemma rank_le_refl (a : Z * (Z * Z)) : rank_le a a.
Proof. unfold rank_le. lia. Qed.

Lemma rank_le_trans (a b c : Z * (Z * Z)) :
  rank_le a b -> rank_le b c -> rank_le a c.
Proof. unfold rank_le. lia. Qed.

Lemma rank_le_total (a b : Z * (Z * Z)) : rank_le a b \/ rank_le b a.
Proof. unfold rank_le. lia. Qed.

Lemma is_nan_spec (x : float) :
  PrimFloat.is_nan x = true <-> Prim2SF x = S754_nan.
Proof.
  split; intros H.
  - unfold Prim2SF. now rewrite H.
  - unfold PrimFloat.is_nan. rewrite FloatAxioms.eqb_spec, H. reflexivity.
Qed.

Lemma not_nan_spec (x : float) :
  PrimFloat.is_nan x = false -> Prim2SF x <> S754_nan.
Proof.
  intros H E. apply is_nan_spec in E. congruence.
Qed.

Lemma leb_not_nan (a b : float) :
  PrimFloat.leb a b = true ->
  PrimFloat.is_nan a = false /\ PrimFloat.is_nan b = false.
Proof.
  rewrite FloatAxioms.leb_spec. intros H.
  split; destruct (PrimFloat.is_nan _) eqn:E; try reflexivity;
    apply is_nan_spec in E; rewrite E in H;
    [|destruct (Prim2SF a)]; discriminate.
Qed.

Lemma leb_nan_l (a b : float) :
  PrimFloat.is_nan b = true -> PrimFloat.leb b a = false.
Proof.
  intros H. apply is_nan_spec in H. now rewrite FloatAxioms.leb_spec, H.
Qed.

Lemma leb_refl (a : float) :
  PrimFloat.is_nan a = false -> PrimFloat.leb a a = true.
Proof.
  intros H. apply not_nan_spec in H.
  rewrite FloatAxioms.leb_spec. apply SFleb_rank; [assumption..|apply rank_le_refl].
Qed.

Lemma leb_trans (a b c : float) :
  PrimFloat.leb a b = true -> PrimFloat.leb b c = true ->
  PrimFloat.leb a c = true.
Proof.
  intros Hab Hbc.
  destruct (leb_not_nan Hab) as [Ha Hb].
  destruct (leb_not_nan Hbc) as [_ Hc].
  apply not_nan_spec in Ha, Hb, Hc.
  rewrite FloatAxioms.leb_spec in *.
  apply SFleb_rank; [assumption..|].
  apply rank_le_trans with (rank (Prim2SF b)); now apply SFleb_rank.
Qed.

Lemma leb_total (a b : float) :
  PrimFloat.is_nan a = false -> PrimFloat.is_nan b = false ->
  PrimFloat.leb b a = false -> PrimFloat.leb a b = true.
Proof.
  intros Ha Hb H. apply not_nan_spec in Ha, Hb.
  rewrite FloatAxioms.leb_spec in *.
  destruct (rank_le_total (rank (Prim2SF a)) (rank (Prim2SF b))) as [Hr|Hr].
  - now apply SFleb_rank.
  - apply SFleb_rank in Hr; [congruence|assumption..].
Qed.

(** [np.maximum] returns one of its two arguments. *)
Lemma f_maximum_cases (a b : float) :
  f_maximum a b = a \/ f_maximum a b = b.
Proof.
  simpl. destruct (PrimFloat.leb b a || PrimFloat.is_nan a); auto.
Qed.

Lemma maximum_in (xs : list float) :
  forall a, In (fold_left f_maximum xs a) (a :: xs).
Proof.
  induction xs as [|b xs IH]; intros a; [now left|].
  cbn [fold_left]. destruct (IH (f_maximum a b)) as [H|H].
  - rewrite <- H. destruct (f_maximum_cases a b) as [E|E]; rewrite E.
    + now left.
    + right. now left.
  - right. now right.
Qed.

(** A NaN met on the way stays to the end. *)
Lemma maximum_nan (xs : list float) :
  forall a,
    PrimFloat.is_nan a = true \/ Described.has_nan xs ->
    PrimFloat.is_nan (fold_left f_maximum xs a) = true.
Proof.
  induction xs as [|b xs IH]; intros a H; cbn [fold_left].
  - destruct H as [H|(x & [] & _)]. exact H.
  - apply IH. simpl f_maximum. destruct H as [H|(x & [<-|Hin] & Hx)].
    + left. now rewrite H, orb_true_r.
    + left. rewrite (@leb_nan_l a b Hx). simpl.
      destruct (PrimFloat.is_nan a) eqn:Ha; assumption.
    + right. now exists x.
Qed.

(** Without a NaN the fold ends on an entry that is above all of them. *)
Lemma maximum_above (xs : list float) :
  forall a,
    PrimFloat.is_nan a = false ->
    (forall x, In x xs -> PrimFloat.is_nan x = false) ->
    PrimFloat.leb a (fold_left f_maximum xs a) = true /\
    forall x, In x xs -> PrimFloat.leb x (fold_left f_maximum xs a) = true.
Proof.
  induction xs as [|b xs IH]; intros a Ha Hxs; cbn [fold_left].
  - split; [now apply leb_refl|intros x []].
  - assert (Hb : PrimFloat.is_nan b = false) by (apply Hxs; now left).
    assert (Hm : PrimFloat.is_nan (f_maximum a b) = false /\
                 PrimFloat.leb a (f_maximum a b) = true /\
                 PrimFloat.leb b (f_maximum a b) = true).
    { simpl f_maximum. rewrite Ha, orb_false_r.
      destruct (PrimFloat.leb b a) eqn:E.
      - repeat split; [assumption|now apply leb_refl|assumption].
      - repeat split; [assumption|now apply leb_total|now apply leb_refl]. }
    destruct Hm as (Hn & Hle_a & Hle_b).
    destruct (IH (f_maximum a b) Hn) as [Hacc Hrest].
    { intros x Hx. apply Hxs. now right. }
    split; [now apply leb_trans with (f_maximum a b)|].
    intros x [<-|Hx]; [now apply leb_trans with (f_maximum a b)|now apply Hrest].
Qed.

End Binary64_order.

(** ** IEEE binary64: the normaliser's statistics *)

Section Binary64_statistics.
Import Described.
Open Scope float_scope.

Lemma column_sum (proj : vec3 float -> float) (ts : list (vec3 float)) :
  (forall u v, proj (vadd u v) = proj u + proj v) ->
  forall v,
    proj (fold_left vadd ts v) = fold_left PrimFloat.add (map proj ts) (proj v).
Proof.
  intros Hp. induction ts as [|t ts IH]; intros v; simpl; [reflexivity|].
  now rewrite IH, Hp.
Qed.

Lemma np_mean_described (ts : list (vec3 float)) :
  np_mean ts = mean_translation ts.
Proof.
  unfold np_mean, add_reduce, mean_translation, column_mean, vdiv.
  rewrite !length_map.
  cbn [vx vy vz].
  rewrite (column_sum (@vx float) ts) by (intros [? ? ?] [? ? ?]; reflexivity).
  rewrite (column_sum (@vy float) ts) by (intros [? ? ?] [? ? ?]; reflexivity).
  rewrite (column_sum (@vz float) ts) by (intros [? ? ?] [? ? ?]; reflexivity).
  reflexivity.
Qed.

Lemma distances_described (c : vec3 float) (ms : list (mat4 float)) :
  map (fun t => linalg_norm (vsub t c)) (map translation ms) =
  map (distance_from c) ms.
Proof. rewrite map_map. apply map_ext. intros m. reflexivity. Qed.

(** C2.  From the matrices of a non-empty pose set the normaliser returns,
    in float64: as [center] the component-wise arithmetic mean of the
    translations (each column summed in frame order from 0.0, over the
    count); as [max_dist] the maximum over the cameras of the Euclidean
    norm of translation minus centre (one of these distances, with every
    distance below or equal to it, and NaN as soon as one distance is
    NaN); as [scale_factor] 2.0 over [max_dist]. *)
Theorem normalizer_statistics (ms : list (mat4 float)) :
  ms <> [] ->
  exists n,
    normalize ms = Return n /\
    center n = mean_translation (map translation ms) /\
    In (max_dist n) (map (distance_from (center n)) ms) /\
    (~ has_nan (map (distance_from (center n)) ms) ->
     is_maximum (max_dist n) (map (distance_from (center n)) ms)) /\
    (has_nan (map (distance_from (center n)) ms) ->
     PrimFloat.is_nan (max_dist n) = true) /\
    scale_factor n = 2 / max_dist n.
Proof.
  intros Hne. destruct ms as [|m ms]; [congruence|].
  pose (c := np_mean (map translation (m :: ms))).
  pose (xs := map (fun t => linalg_norm (vsub t c)) (map translation ms)).
  pose (a := linalg_norm (vsub (translation m) c)).
  exists (Normalization c (fold_left f_maximum xs a)
                        (f_div f_two (fold_left f_maximum xs a))).
  split; [apply normalize_cons|].
  cbn [center max_dist scale_factor].
  assert (Hd : map (distance_from c) (m :: ms) = a :: xs).
  { rewrite <- distances_described. reflexivity. }
  rewrite Hd.
  split; [apply np_mean_described|].
  split; [apply maximum_in|].
  split; [|split; [|reflexivity]].
  - intros Hnan.
    assert (Ha : PrimFloat.is_nan a = false).
    { destruct (PrimFloat.is_nan a) eqn:E; [|reflexivity].
      exfalso. apply Hnan. exists a. split; [now left|exact E]. }
    assert (Hxs : forall x, In x xs -> PrimFloat.is_nan x = false).
    { intros x Hx. destruct (PrimFloat.is_nan x) eqn:E; [|reflexivity].
      exfalso. apply Hnan. exists x. split; [now right|exact E]. }
    destruct (@maximum_above xs a Ha Hxs) as [Hacc Hrest].
    split; [apply maximum_in|].
    intros x [<-|Hx]; [exact Hacc|now apply Hrest].
  - intros (x & [<-|Hx] & Hn); apply maximum_nan.
    + now left.
    + right. now exists x.
Qed.

End Binary64_statistics.

(** The statistics at the two-camera sample. *)
Lemma normalizer_statistics_witness :
  exists n,
    normalize (map (@Poses.world_from_camera float)
                   (Poses.frames (Samples.two_cameras (F := float)))) = Return n /\
    center n =
      Described.mean_translation
        (map translation
             (map (@Poses.world_from_camera float)
                  (Poses.frames (Samples.two_cameras (F := float))))) /\
    In (max_dist n)
       (map (Described.distance_from (center n))
            (map (@Poses.world_from_camera float)
                 (Poses.frames (Samples.two_cameras (F := float))))) /\
    (~ Described.has_nan
         (map (Described.distance_from (center n))
              (map (@Poses.world_from_camera float)
                   (Poses.frames (Samples.two_cameras (F := float))))) ->
     Described.is_maximum (max_dist n)
       (map (Described.distance_from (center n))
            (map (@Poses.world_from_camera float)
                 (Poses.frames (Samples.two_cameras (F := float)))))) /\
    (Described.has_nan
       (map (Described.distance_from (center n))
            (map (@Poses.world_from_camera float)
                 (Poses.frames (Samples.two_cameras (F := float))))) ->
     PrimFloat.is_nan (max_dist n) = true) /\
    scale_factor n = (2 / max_dist n)%float.
Proof.
  apply (normalizer_statistics
           (ms := map (@Poses.world_from_camera float)
                      (Poses.frames (Samples.two_cameras (F := float))))).
  simpl. discriminate.
Defined.

(** ** IEEE binary64: a second run, the order of the frames, and the
    translations written at [max_dist] zero *)

Section Binary64_runs.
Import Described.
Open Scope float_scope.

(** C6, amended.  The transform is not idempotent in general: for the
    translations (1,2,3), (4,0,1), (0,5,2) a second run, on the manifest
    of the first, finds a centre that is not the origin, has scale factor
    1 where the first had another, and writes other translations.  (It is
    not so on every input: see [second_run_same_scale].) *)
Theorem second_run_can_differ :
  exists n1 out1 n2 out2,
    normalize (map (@Poses.world_from_camera float)
                   (Poses.frames Variants.three_cameras)) = Return n1 /\
    main (Files (Some Variants.three_cameras)
                (Some (Samples.intrinsics (F := float))) None) =
      (Return tt,
       Files (Some Variants.three_cameras)
             (Some (Samples.intrinsics (F := float))) (Some out1)) /\
    normalize (map (@Poses.world_from_camera float)
                   (Poses.frames (as_poses out1))) = Return n2 /\
    main (Files (Some (as_poses out1))
                (Some (Samples.intrinsics (F := float))) (Some out1)) =
      (Return tt,
       Files (Some (as_poses out1))
             (Some (Samples.intrinsics (F := float))) (Some out2)) /\
    PrimFloat.eqb (vx (center n2)) 0 = false /\
    scale_factor n2 = 1 /\
    PrimFloat.eqb (scale_factor n1) (scale_factor n2) = false /\
    map (fun f => PrimFloat.eqb (vx (output_translation (fst f)))
                                (vx (output_translation (snd f))))
        (combine (Manifest.frames out1) (Manifest.frames out2)) =
      [false; true; true] /\
    map (fun f => PrimFloat.eqb (vy (output_translation (fst f)))
                                (vy (output_translation (snd f))))
        (combine (Manifest.frames out1) (Manifest.frames out2)) =
      [false; true; true].
Proof.
  pose (n1 := match normalize (map (@Poses.world_from_camera float)
                                   (Poses.frames Variants.three_cameras)) with
              | Return n => n
              | Raise _ => Normalization (Vec3 0 0 0) 0 0
              end).
  pose (out1 := output_header (Samples.intrinsics (F := float))
                  (map (normalized_frame n1) (Poses.frames Variants.three_cameras))).
  pose (n2 := match normalize (map (@Poses.world_from_camera float)
                                   (Poses.frames (as_poses out1))) with
              | Return n => n
              | Raise _ => Normalization (Vec3 0 0 0) 0 0
              end).
  pose (out2 := output_header (Samples.intrinsics (F := float))
                  (map (normalized_frame n2) (Poses.frames (as_poses out1)))).
  assert (H1 : normalize (map (@Poses.world_from_camera float)
                              (Poses.frames Variants.three_cameras)) = Return n1)
    by (vm_compute; reflexivity).
  assert (H2 : normalize (map (@Poses.world_from_camera float)
                              (Poses.frames (as_poses out1))) = Return n2)
    by (vm_compute; reflexivity).
  exists n1, out1, n2, out2.
  split; [exact H1|].
  split; [apply main_writes, convert_returns, H1|].
  split; [exact H2|].
  split; [apply main_writes, convert_returns, H2|].
  repeat split; vm_compute; reflexivity.
Qed.

(** X7.  The order of the frames matters in float64: the same four
    frames in two orders get two centres (x 0.25 and 0.5), and the frame
    at (1,0,0) is written at another place. *)
Theorem frame_order_matters :
  exists n n' out out',
    Permutation (Poses.frames Variants.far_and_near)
                (Poses.frames Variants.far_and_near_reordered) /\
    normalize (map (@Poses.world_from_camera float)
                   (Poses.frames Variants.far_and_near)) = Return n /\
    normalize (map (@Poses.world_from_camera float)
                   (Poses.frames Variants.far_and_near_reordered)) = Return n' /\
    vx (center n) = 0.25 /\ vx (center n') = 0.5 /\
    main (Files (Some Variants.far_and_near)
                (Some (Samples.intrinsics (F := float))) None) =
      (Return tt,
       Files (Some Variants.far_and_near)
             (Some (Samples.intrinsics (F := float))) (Some out)) /\
    main (Files (Some Variants.far_and_near_reordered)
                (Some (Samples.intrinsics (F := float))) None) =
      (Return tt,
       Files (Some Variants.far_and_near_reordered)
             (Some (Samples.intrinsics (F := float))) (Some out')) /\
    (exists f f',
        nth_error (Manifest.frames out) 1 = Some f /\
        nth_error (Manifest.frames out') 2 = Some f' /\
        Manifest.file_path f = Manifest.file_path f' /\
        PrimFloat.eqb (vx (output_translation f))
                      (vx (output_translation f')) = false).
Proof.
  pose (n := Normalization (Vec3 0.25 0 0) 1e16 (2 / 1e16)).
  pose (n' := Normalization (Vec3 0.5 0 0) 1e16 (2 / 1e16)).
  assert (H : normalize (map (@Poses.world_from_camera float)
                             (Poses.frames Variants.far_and_near)) = Return n)
    by (vm_compute; reflexivity).
  assert (H' : normalize (map (@Poses.world_from_camera float)
                              (Poses.frames Variants.far_and_near_reordered)) =
               Return n')
    by (vm_compute; reflexivity).
  exists n, n'. do 2 eexists.
  split.
  { simpl. apply perm_skip. apply perm_swap. }
  split; [exact H|]. split; [exact H'|]. split; [reflexivity|].
  split; [reflexivity|].
  split; [apply main_writes, convert_returns, H|].
  split; [apply main_writes, convert_returns, H'|].
  do 2 eexists. split; [reflexivity|]. split; [reflexivity|].
  split; vm_compute; reflexivity.
Qed.

Lemma mul_infinity_not_finite (x : float) : not_finite (x * infinity).
Proof.
  unfold not_finite.
  assert (H := mul_spec x infinity).
  change (Prim2SF infinity) with (S754_infinity false) in H.
  destruct (Prim2SF x) as [s|s| |s m e]; simpl in H.
  - left. apply Prim2SF_inj. exact H.
  - destruct s; simpl in H.
    + right; right. apply Prim2SF_inj. exact H.
    + right; left. apply Prim2SF_inj. exact H.
  - left. apply Prim2SF_inj. exact H.
  - destruct s; simpl in H.
    + right; right. apply Prim2SF_inj. exact H.
    + right; left. apply Prim2SF_inj. exact H.
Qed.

(** X9.  In float64, when [max_dist] is zero no translation component
    written to the manifest is a finite number: each is NaN or an
    infinity, for every frame. *)
Theorem zero_max_dist_nothing_finite
        (p : Poses.t float) (i : Intrinsics.t float)
        (old : option (Manifest.t float)) (n : normalization) :
  normalize (map (@Poses.world_from_camera float) (Poses.frames p)) = Return n ->
  max_dist n = 0 ->
  exists out,
    main (Files (Some p) (Some i) old) =
      (Return tt, Files (Some p) (Some i) (Some out)) /\
    List.length (Manifest.frames out) = List.length (Poses.frames p) /\
    Forall (fun f => not_finite (vx (output_translation f)) /\
                     not_finite (vy (output_translation f)) /\
                     not_finite (vz (output_translation f)))
           (Manifest.frames out).
Proof.
  intros Hn Hz.
  destruct (normalize_inv _ Hn) as (_ & _ & _ & Hs).
  assert (Hinf : scale_factor n = infinity) by (rewrite Hs, Hz; reflexivity).
  exists (output_header i (map (normalized_frame n) (Poses.frames p))).
  split; [apply main_writes, convert_returns, Hn|].
  split; [apply length_map|].
  apply Forall_forall. intros f Hf.
  change (In f (map (normalized_frame n) (Poses.frames p))) in Hf.
  apply in_map_iff in Hf.
  destruct Hf as (fin & <- & _).
  change (output_translation (normalized_frame n fin))
    with (vscale (vsub (translation (Poses.world_from_camera fin)) (center n))
                 (scale_factor n)).
  rewrite Hinf. unfold vscale. cbn [vx vy vz f_mul binary64].
  repeat split; apply mul_infinity_not_finite.
Qed.

End Binary64_runs.

(** The coincident sample: nothing finite is written. *)
Lemma zero_max_dist_nothing_finite_witness :
  exists out,
    main (Files (Some (Samples.coincident_cameras (F := float)))
                (Some (Samples.intrinsics (F := float))) None) =
      (Return tt,
       Files (Some (Samples.coincident_cameras (F := float)))
             (Some (Samples.intrinsics (F := float))) (Some out)) /\
    List.length (Manifest.frames out) =
      List.length (Poses.frames (Samples.coincident_cameras (F := float))) /\
    Forall (fun f => Described.not_finite (vx (output_translation f)) /\
                     Described.not_finite (vy (output_translation f)) /\
                     Described.not_finite (vz (output_translation f)))
           (Manifest.frames out).
Proof.
  apply (zero_max_dist_nothing_finite
           (Samples.coincident_cameras (F := float))
           (Samples.intrinsics (F := float)) None
           (n := Normalization (Vec3 1 1 1) 0 infinity)%float).
  - vm_compute. reflexivity.
  - reflexivity.
Defined.
